(** * Change-management decision core of [lacrosse-logic.js]

    A shallow embedding of the three decision functions of
    [src/lacrosse-logic.js] ([classifyChange], [assessRisk],
    [getApprovalPath]) and of the [APPROVAL_WORKFLOWS] table they consult,
    followed by the properties the specification states about them.  The
    deciding parts of the callers ([readSliderValues], the two event
    handlers, the score text of [renderRiskScore]) are embedded as well, and
    further properties of the code follow the specification's.

    JavaScript numbers are IEEE 754 binary64 values; they are modelled by
    Rocq's primitive floats, which are the same format with the same
    round-to-nearest-even operations.  JavaScript strings are modelled by
    [string]; the two non-ASCII characters of the table are kept as their
    UTF-8 bytes, which is enough because the code only compares strings and
    concatenates them. *)

From Stdlib Require Import ZArith QArith Qabs Floats.
From stdpp Require Import gmap strings list.
From Stdlib Require Import Ascii.
From Stdlib Require DecimalString DecimalN DecimalPos.

Open Scope string_scope.

(** ** The fragment of JavaScript the core functions use *)

Module JS.

(** Primitive values a caller can pass as an answer, a change type or a
    risk tier.  Numbers, symbols and objects are outside the argument domain
    modelled here; the page passes none of them. *)
Inductive prim : Type :=
| PUndefined
| PNull
| PBool (b : bool)
| PStr (s : string).

(** Values a property read on the workflow table can produce: a primitive,
    an array of step strings, or one of the built-in objects that every
    ordinary object inherits from [Object.prototype], identified by the
    property name under which it is found. *)
Inductive value : Type :=
| VPrim (p : prim)
| VArr (steps : list string)
| VBuiltin (name : string).

(** The outcome of a call: it returns a value or throws. *)
Inductive completion (A : Type) : Type :=
| Return (v : A)
| Throw (error : string).
Arguments Return {A} v.
Arguments Throw {A} error.

(** [x === s] for a string literal [s]: true for that very string only,
    with no conversion of the left operand. *)
Definition strict_eq_str (x : prim) (s : string) : bool :=
  match x with
  | PStr t => bool_decide (t = s)
  | _ => false
  end.

(** ToString, as applied by a template literal and by a computed property
    key. *)
Definition ToString (x : prim) : string :=
  match x with
  | PUndefined => "undefined"
  | PNull => "null"
  | PBool true => "true"
  | PBool false => "false"
  | PStr s => s
  end.

(** ToBoolean: arrays and built-in objects are truthy, the empty array
    included. *)
Definition ToBoolean (v : value) : bool :=
  match v with
  | VPrim PUndefined | VPrim PNull => false
  | VPrim (PBool b) => b
  | VPrim (PStr s) => negb (bool_decide (s = ""))
  | VArr _ | VBuiltin _ => true
  end.

(** [a || b] *)
Definition logical_or (a b : value) : value :=
  if ToBoolean a then a else b.

(** The properties of [Object.prototype], which an object literal
    inherits. *)
Definition object_prototype_names : list string :=
  [ "constructor"; "hasOwnProperty"; "isPrototypeOf";
    "propertyIsEnumerable"; "toLocaleString"; "toString"; "valueOf";
    "__proto__"; "__defineGetter__"; "__defineSetter__";
    "__lookupGetter__"; "__lookupSetter__" ].

(** [o[key]] on an object literal whose own properties are arrays of
    strings: the own property if there is one, else the property inherited
    from [Object.prototype], else [undefined]. *)
Definition Get (o : gmap string (list string)) (key : string) : value :=
  match o !! key with
  | Some steps => VArr steps
  | None =>
      if bool_decide (key ∈ object_prototype_names)
      then VBuiltin key
      else VPrim PUndefined
  end.

(** The number held by [scores.length]. *)
Definition length_number {A : Type} (arr : list A) : float :=
  PrimFloat.of_uint63 (Uint63.of_Z (Z.of_nat (length arr))).

(** [arr.reduce(f, init)] *)
Definition reduce {A B : Type} (f : B → A → B) (init : B) (arr : list A) : B :=
  fold_left f arr init.

End JS.
Import JS.

(** ** Static policy data *)

(** The own properties of [APPROVAL_WORKFLOWS], in source order. *)
Definition APPROVAL_WORKFLOWS_entries : list (string * list string) :=
  [ ("Standard",
      [ "Requester triggers pipeline";
        "Automated pre-checks (lint, test, scan)";
        "Auto-approved — change model match verified";
        "Deploy";
        "Automated validation";
        "Change record logged automatically" ]);
    ("Normal-Low",
      [ "Requester submits RFC";
        "Automated risk scoring";
        "Peer review (1 reviewer, async)";
        "Approved → Scheduled in change calendar";
        "Deploy in approved window";
        "Validation";
        "Close RFC" ]);
    ("Normal-Medium",
      [ "Requester submits RFC";
        "Automated risk scoring";
        "Technical review (architect or senior engineer)";
        "Change authority approval";
        "Scheduled in change calendar (with conflict check)";
        "Deploy with monitoring";
        "Validation + brief PIR";
        "Close RFC" ]);
    ("Normal-High",
      [ "Requester submits RFC";
        "Automated risk scoring";
        "Technical review + security review";
        "Pre-CAB: documentation completeness check";
        "CAB review (weekly cadence or ad-hoc)";
        "Senior management sign-off";
        "Scheduled with communication plan";
        "Deploy with war-room / bridge call";
        "Validation + full PIR";
        "Close RFC" ]);
    ("Emergency",
      [ "Incident declared";
        "Emergency RFC created (minimal fields)";
        "ECAB approval (phone/chat, 2 approvers minimum)";
        "Implement immediately";
        "Validate service restored";
        "Retrospective RFC completion (within 48 h)";
        "Mandatory PIR" ]) ].

Definition APPROVAL_WORKFLOWS : gmap string (list string) :=
  list_to_map APPROVAL_WORKFLOWS_entries.

(** ** Core functions *)

(** [classifyChange(serviceDown, preApproved)] *)
Definition classifyChange (serviceDown preApproved : prim) : string :=
  if strict_eq_str serviceDown "yes" then "Emergency"
  else if strict_eq_str preApproved "yes" then "Standard"
  else "Normal".

(** The object [assessRisk] returns. *)
Record RiskAssessment : Type := mkRiskAssessment
  { score : float;
    tier : string }.

(** [assessRisk(scores)] *)
Definition assessRisk (scores : list float) : RiskAssessment :=
  let sum := reduce (λ acc val, acc + val)%float 0%float scores in
  let score := (sum / length_number scores)%float in
  let tier :=
    if (score <=? 2.0)%float then "Low"
    else if (score <=? 3.5)%float then "Medium"
    else "High" in
  {| score := score; tier := tier |}.

(** [getApprovalPath(changeType, riskTier)], reading the table [workflows]
    that the module-level constant is bound to. *)
Definition getApprovalPathIn (workflows : gmap string (list string))
    (changeType riskTier : prim) : completion value :=
  if strict_eq_str changeType "Normal" then
    Return (logical_or (Get workflows ("Normal-" ++ ToString riskTier)) (VArr []))
  else
    Return (logical_or (Get workflows (ToString changeType)) (VArr [])).

Definition getApprovalPath : prim → prim → completion value :=
  getApprovalPathIn APPROVAL_WORKFLOWS.

(** The decision part of the click handler of the Assess Risk button:
    [const { score, tier } = assessRisk(scores)] followed by
    [getApprovalPath('Normal', tier)]. *)
Definition onAssessRiskClick (scores : list float)
    : RiskAssessment * completion value :=
  let r := assessRisk scores in
  (r, getApprovalPath (PStr "Normal") (PStr (tier r))).

(** ** The functions on the heap

    Arrays and objects are mutable and are handed around by reference.  To
    see what the three functions do to shared state, they are run here
    against a heap: a list of objects in the order of their allocation, an
    object's reference being its position.  Strings and numbers are
    primitive values and live outside the heap. *)

Inductive object : Type :=
| OSteps (steps : list string)
| OTable (properties : gmap string nat)
| ORisk (r : RiskAssessment).

(** What an expression evaluates to: a primitive, a reference to an object
    of the heap, or a built-in inherited from [Object.prototype]. *)
Inductive ref_value : Type :=
| RPrim (p : prim)
| RRef (l : nat)
| RBuiltin (name : string).

(** The heap once the script is loaded: the five step arrays, then the
    object whose properties refer to them. *)
Definition initial_heap : list object :=
  (map (λ entry, OSteps entry.2) APPROVAL_WORKFLOWS_entries
   ++ [OTable (list_to_map
                 (zip (map fst APPROVAL_WORKFLOWS_entries)
                      (seq 0 (length APPROVAL_WORKFLOWS_entries))))])%list.

(** The object the constant [APPROVAL_WORKFLOWS] is bound to. *)
Definition APPROVAL_WORKFLOWS_ref : nat := length APPROVAL_WORKFLOWS_entries.

(** ToBoolean of an evaluated expression: every object is truthy. *)
Definition truthy (v : ref_value) : bool :=
  match v with
  | RPrim p => ToBoolean (VPrim p)
  | RRef _ | RBuiltin _ => true
  end.

(** [o[key]] for the object at [l]: an own property, else an inherited one,
    else [undefined].  The heap is only read.  (The constant always refers to
    an object literal; the last case is for heaps that are not well formed.) *)
Definition read_property (h : list object) (l : nat) (key : string)
    : ref_value :=
  match h !! l with
  | Some (OTable properties) =>
      match properties !! key with
      | Some a => RRef a
      | None =>
          if bool_decide (key ∈ object_prototype_names)
          then RBuiltin key
          else RPrim PUndefined
      end
  | _ => RPrim PUndefined
  end.

(** [APPROVAL_WORKFLOWS[key] || []]: the array literal is evaluated, and a
    new empty array allocated, only when the property read is falsy. *)
Definition workflow_or_new_array (key : string) (h : list object)
    : ref_value * list object :=
  let found := read_property h APPROVAL_WORKFLOWS_ref key in
  if truthy found then (found, h)
  else (RRef (length h), (h ++ [OSteps []])%list).

(** [getApprovalPath(changeType, riskTier)] on the heap. *)
Definition getApprovalPathOnHeap (changeType riskTier : prim)
    (h : list object) : ref_value * list object :=
  if strict_eq_str changeType "Normal" then
    workflow_or_new_array ("Normal-" ++ ToString riskTier) h
  else
    workflow_or_new_array (ToString changeType) h.

(** [assessRisk(scores)] on the heap: the numbers of the argument array are
    read, and the result is a newly allocated object.  The argument array is
    neither written to nor kept, so it is passed here by its content. *)
Definition assessRiskOnHeap (scores : list float) (h : list object)
    : ref_value * list object :=
  (RRef (length h), (h ++ [ORisk (assessRisk scores)])%list).

(** [classifyChange(serviceDown, preApproved)] on the heap: its arguments
    and its result are primitive values, and its body evaluates no object
    expression. *)
Definition classifyChangeOnHeap (serviceDown preApproved : prim)
    (h : list object) : ref_value * list object :=
  (RPrim (PStr (classifyChange serviceDown preApproved)), h).

(** A call of one of the three functions. *)
Inductive call : Type :=
| CallClassifyChange (serviceDown preApproved : prim)
| CallAssessRisk (scores : list float)
| CallGetApprovalPath (changeType riskTier : prim).

Definition run_call (c : call) : list object → ref_value * list object :=
  match c with
  | CallClassifyChange serviceDown preApproved =>
      classifyChangeOnHeap serviceDown preApproved
  | CallAssessRisk scores => assessRiskOnHeap scores
  | CallGetApprovalPath changeType riskTier =>
      getApprovalPathOnHeap changeType riskTier
  end.


(** What a caller can observe of a value: a primitive, or the content of
    the object referred to. *)
Inductive observation : Type :=
| SeenPrim (p : prim)
| SeenSteps (steps : list string)
| SeenRisk (r : RiskAssessment)
| SeenTable
| SeenBuiltin (name : string)
| SeenNothing.

Definition observe (h : list object) (v : ref_value) : observation :=
  match v with
  | RPrim p => SeenPrim p
  | RBuiltin name => SeenBuiltin name
  | RRef l =>
      match h !! l with
      | Some (OSteps steps) => SeenSteps steps
      | Some (ORisk r) => SeenRisk r
      | Some (OTable _) => SeenTable
      | None => SeenNothing
      end
  end.

(** The output of a call, as observed when it returns. *)
Definition output (c : call) (h : list object) : observation :=
  observe (run_call c h).2 (run_call c h).1.

(** The constant refers to an object whose properties all refer to
    allocated objects. *)
Definition well_formed (h : list object) : bool :=
  match h !! APPROVAL_WORKFLOWS_ref with
  | Some (OTable properties) =>
      forallb (λ kl, bool_decide (kl.2 < length h)%nat) (map_to_list properties)
  | _ => false
  end.


(** The observation that corresponds to a result of the functions as they
    are modelled on values. *)
Definition observation_of_value (v : completion value) : observation :=
  match v with
  | Return (VPrim p) => SeenPrim p
  | Return (VArr steps) => SeenSteps steps
  | Return (VBuiltin name) => SeenBuiltin name
  | Throw _ => SeenNothing
  end.

(** ** Vocabulary of the specification *)

(** An answer is affirmative when it is the string [yes]. *)
Definition affirmative (answer : prim) : Prop := answer = PStr "yes".

(** The property key a call of [getApprovalPath] reads. *)
Definition lookup_key (changeType riskTier : prim) : string :=
  if strict_eq_str changeType "Normal"
  then "Normal-" ++ ToString riskTier
  else ToString changeType.

(** A call fails with the error [e]. *)
Definition fails_with {A : Type} (c : completion A) (e : string) : Prop :=
  c = Throw e.

(** The number denoted by an integer literal or produced by [parseInt] for a
    small non-negative integer. *)
Definition number_of_Z (z : Z) : float :=
  PrimFloat.of_uint63 (Uint63.of_Z z).

(** The rational a finite binary64 value stands for. *)
Definition exact_value (x : float) : option Q :=
  match Prim2SF x with
  | S754_zero _ => Some 0%Q
  | S754_finite sign m e =>
      let q := (inject_Z (Z.pos m) * Qpower 2 e)%Q in
      Some (if sign then Qopp q else q)
  | S754_infinity _ | S754_nan => None
  end.

(** The arithmetic mean of a sequence of integers, as a rational. *)
Definition mean (zs : list Z) : Q :=
  (inject_Z (foldr Z.add 0%Z zs) / inject_Z (Z.of_nat (length zs)))%Q.

(** [check] holds of every sequence of [n] integer scores between 1 and 5,
    tested by running through all of them. *)
Fixpoint forall_scores (n : nat) (check : list Z → bool) : bool :=
  match n with
  | O => check []
  | S n' =>
      forallb (λ z, forall_scores n' (λ l, check (z :: l))) [1; 2; 3; 4; 5]%Z
  end.

(** What is tested of one sequence of integer scores: the score is the
    binary64 quotient of the exact sum by the count, lies between 1 and 5,
    and its exact value is within 2^-51 of the rational mean. *)
Definition score_is_mean (zs : list Z) : bool :=
  let s := score (assessRisk (map number_of_Z zs)) in
  Leibniz.eqb s
    (number_of_Z (foldr Z.add 0%Z zs) / number_of_Z (Z.of_nat (length zs)))%float
  && (1.0 <=? s)%float && (s <=? 5.0)%float
  && match exact_value s with
     | Some q =>
         Qle_bool (Qabs (q - mean zs)) (1 # 2 ^ 51)
         && Qle_bool 1 q && Qle_bool q 5
     | None => false
     end.

(** ** The rest of the page logic

    The functions below are the parts of the DOM helpers and event handlers
    that decide something.  What they write into the page (text, classes,
    visibility) depends on the structure of a document that is not part of
    the script, and is not modelled. *)

(** A risk dimension; the field [id] of the source is [dim_id] here. *)
Record RiskDimension : Type := mkRiskDimension
  { dim_id : string;
    label : string;
    lowDesc : string;
    highDesc : string }.

Definition RISK_DIMENSIONS : list RiskDimension :=
  [ {| dim_id := "impact-scope";
       label := "Impact Scope";
       lowDesc := "1 = Single non-critical component";
       highDesc := "5 = Multiple critical business services" |};
    {| dim_id := "complexity";
       label := "Complexity";
       lowDesc := "1 = Single config change";
       highDesc := "5 = Multi-system orchestrated deployment" |};
    {| dim_id := "reversibility";
       label := "Reversibility";
       lowDesc := "1 = Instant automated rollback";
       highDesc := "5 = Irreversible (data migration, schema)" |};
    {| dim_id := "testing-confidence";
       label := "Testing Confidence";
       lowDesc := "1 = Full automated test coverage";
       highDesc := "5 = No test environment available" |};
    {| dim_id := "deployment-history";
       label := "Deployment History";
       lowDesc := "1 = Identical change succeeded 10×";
       highDesc := "5 = First-of-its-kind change" |};
    {| dim_id := "timing-sensitivity";
       label := "Timing Sensitivity";
       lowDesc := "1 = Off-peak, low-traffic window";
       highDesc := "5 = Peak hours, month-end, launch day" |};
    {| dim_id := "dependency-count";
       label := "Dependency Count";
       lowDesc := "1 = Zero external dependencies";
       highDesc := "5 = 5+ teams / external vendors involved" |} ].

(** *** [parseInt(string, 10)] *)

(** The white space and line terminator characters that [parseInt] skips,
    as UTF-8 byte sequences: TAB, LF, VT, FF, CR, SP, U+00A0, U+1680,
    U+2000 to U+200A, U+2028, U+2029, U+202F, U+205F, U+3000, U+FEFF. *)
Definition white_space_bytes : list (list nat) :=
  [ [9]; [10]; [11]; [12]; [13]; [32]; [194; 160]; [225; 154; 128];
    [226; 128; 128]; [226; 128; 129]; [226; 128; 130]; [226; 128; 131];
    [226; 128; 132]; [226; 128; 133]; [226; 128; 134]; [226; 128; 135];
    [226; 128; 136]; [226; 128; 137]; [226; 128; 138]; [226; 128; 168];
    [226; 128; 169]; [226; 128; 175]; [226; 129; 159]; [227; 128; 128];
    [239; 187; 191] ]%nat.

Definition white_space : list string :=
  map (λ bytes, String.string_of_list_ascii (map Ascii.ascii_of_nat bytes)) white_space_bytes.

(** [s] without the prefix [p], when it starts with [p]. *)
Fixpoint strip_prefix (p s : string) : option string :=
  match p, s with
  | EmptyString, _ => Some s
  | String a p', String b s' =>
      if Ascii.eqb a b then strip_prefix p' s' else None
  | String _ _, EmptyString => None
  end.

(** [s] without one leading white space character, when it has one. *)
Definition strip_white_space (s : string) : option string :=
  list_find (λ r, is_Some r) (map (λ w, strip_prefix w s) white_space)
  ≫= λ found, found.2.

(** [s] without its leading white space; at most [fuel] characters are
    removed, and [String.length s] is always enough. *)
Fixpoint trim_start_fuel (fuel : nat) (s : string) : string :=
  match fuel with
  | O => s
  | S fuel' =>
      match strip_white_space s with
      | Some rest => trim_start_fuel fuel' rest
      | None => s
      end
  end.

Definition trim_start (s : string) : string :=
  trim_start_fuel (String.length s) s.

(** The decimal digit a character stands for. *)
Definition digit_of_ascii (c : ascii) : option (Decimal.uint → Decimal.uint) :=
  if Ascii.eqb c "0"%char then Some Decimal.D0
  else if Ascii.eqb c "1"%char then Some Decimal.D1
  else if Ascii.eqb c "2"%char then Some Decimal.D2
  else if Ascii.eqb c "3"%char then Some Decimal.D3
  else if Ascii.eqb c "4"%char then Some Decimal.D4
  else if Ascii.eqb c "5"%char then Some Decimal.D5
  else if Ascii.eqb c "6"%char then Some Decimal.D6
  else if Ascii.eqb c "7"%char then Some Decimal.D7
  else if Ascii.eqb c "8"%char then Some Decimal.D8
  else if Ascii.eqb c "9"%char then Some Decimal.D9
  else None.

(** The longest prefix of [s] made of decimal digits, most significant
    digit first. *)
Fixpoint leading_digits (s : string) : Decimal.uint :=
  match s with
  | EmptyString => Decimal.Nil
  | String c s' =>
      match digit_of_ascii c with
      | Some d => d (leading_digits s')
      | None => Decimal.Nil
      end
  end.

(** The decimal numeral of a natural number, which is what [String(n)] gives
    for an integer below 10^21 and what a range input holds as its value. *)
Definition decimal_string (n : N) : string :=
  DecimalString.NilZero.string_of_uint (N.to_uint n).

(** The Number value for an integer: the binary64 value nearest to it, ties
    to even. *)
Definition number_of_integer (z : Z) : float :=
  SF2Prim (binary_normalize prec emax z 0 false).

(** [parseInt(input, 10)].  Every digit of the prefix is taken into account
    (the standard lets an implementation replace digits after the twentieth
    by zeros). *)
Definition parseInt10 (input : prim) : float :=
  let inputString := ToString input in
  let trimmed := trim_start inputString in
  let '(negative, unsigned) :=
    match trimmed with
    | String "-" rest => (true, rest)
    | String "+" rest => (false, rest)
    | _ => (false, trimmed)
    end in
  match leading_digits unsigned with
  | Decimal.Nil => PrimFloat.nan
  | digits =>
      let mathInt := Z.of_N (N.of_uint digits) in
      if (mathInt =? 0)%Z
      then (if negative then PrimFloat.neg_zero else PrimFloat.zero)
      else number_of_integer (if negative then - mathInt else mathInt)%Z
  end.

(** *** [readSliderValues] *)

(** What the function reads of an element: its [value] property, a string
    for an input element and [undefined] for an element that has none. *)
Record element : Type := mkElement
  { element_value : prim }.

(** [readSliderValues()], against the document given by what
    [document.getElementById] returns for each id ([None] for [null]). *)
Definition readSliderValues (getElementById : string → option element)
    : list float :=
  map (λ dim,
         match getElementById ("slider-" ++ dim_id dim) with
         | Some el => parseInt10 (element_value el)
         | None => 3%float
         end)
      RISK_DIMENSIONS.

(** *** The submit handler *)

(** What the submit handler does after it has read the two answers: it
    alerts and stops, or it shows the classification and the sliders, or it
    shows the classification and an approval path. *)
Inductive submission : Type :=
| SubmitRejected
| SubmitSliders (changeType : string)
| SubmitPath (changeType : string) (steps : completion value).

(** The decision part of the submit handler.  An answer is the [value] of
    the checked radio button, or [undefined] when none is checked. *)
Definition onSubmit (serviceDown preApproved : prim) : submission :=
  if negb (ToBoolean (VPrim serviceDown)) || negb (ToBoolean (VPrim preApproved))
  then SubmitRejected
  else
    let changeType := classifyChange serviceDown preApproved in
    if strict_eq_str (PStr changeType) "Normal"
    then SubmitSliders changeType
    else SubmitPath changeType (getApprovalPath (PStr changeType) PNull).

(** *** [renderRiskScore]: the text of the composite score *)

(** The integer [n] for which [n / 10^f - x] is as close to zero as
    possible, the larger one when there are two; [x] is not negative. *)
Definition nearest_scaled (x : Q) (f : nat) : Z :=
  let y := (x * inject_Z (10 ^ Z.of_nat f))%Q in
  ((2 * Qnum y + Z.pos (Qden y)) / (2 * Z.pos (Qden y)))%Z.

(** The decimal digits of [n], padded with zeros to more than [f] digits,
    with a point before the last [f] of them. *)
Definition place_point (n : Z) (f : nat) : string :=
  let m := decimal_string (Z.to_N n) in
  if (f =? 0)%nat then m
  else
    let k := String.length m in
    let m :=
      if (k <=? f)%nat
      then String.concat "" (replicate (f + 1 - k) "0") ++ m
      else m in
    let k := String.length m in
    String.substring 0 (k - f) m ++ "." ++ String.substring (k - f) f m.

(** [x.toFixed(fractionDigits)].  For a value of 10^21 or more the result
    is that of [Number::toString], which is not modelled and is taken as the
    parameter [Number_toString]. *)
Definition toFixed (Number_toString : float → string)
    (x : float) (fractionDigits : nat) : completion string :=
  if (100 <? fractionDigits)%nat then Throw "RangeError"
  else
    match Prim2SF x, exact_value x with
    | S754_nan, _ => Return "NaN"
    | S754_infinity false, _ => Return "Infinity"
    | S754_infinity true, _ => Return "-Infinity"
    | _, Some q =>
        let s := if Qle_bool 0 q then "" else "-" in
        let a := Qabs q in
        if Qle_bool (inject_Z (10 ^ 21)) a
        then Return (s ++ Number_toString (PrimFloat.abs x))
        else Return (s ++ place_point (nearest_scaled a fractionDigits)
                                      fractionDigits)
    | _, None => Return "NaN" (* not reached: a finite value has an exact value *)
    end.

(** The text [renderRiskScore] writes as the composite score. *)
Definition compositeScoreText (Number_toString : float → string)
    (score : float) : completion string :=
  toFixed Number_toString score 2.

(** ** More vocabulary *)

(** The order of the tiers, from the lightest review to the heaviest. *)
Definition tier_rank (tier : string) : nat :=
  if bool_decide (tier = "Low") then 0
  else if bool_decide (tier = "Medium") then 1
  else 2.

(** The number of steps of a resolved path. *)
Definition path_length (path : completion value) : nat :=
  match path with
  | Return (VArr steps) => length steps
  | _ => 0
  end.

(** The tier that goes with the sum of seven integer scores. *)
Definition tier_of_sum (sum : Z) : string :=
  if (sum <=? 14)%Z then "Low"
  else if (sum <=? 24)%Z then "Medium"
  else "High".

(** What is tested of one sequence of integer scores: the result of
    [assessRisk] is determined by the sum of the scores. *)
Definition result_by_sum (zs : list Z) : bool :=
  let r := assessRisk (map number_of_Z zs) in
  let sum := foldr Z.add 0%Z zs in
  Leibniz.eqb (score r)
    (number_of_Z sum / number_of_Z (Z.of_nat (length zs)))%float
  && bool_decide (tier r = tier_of_sum sum).

(** * Properties *)

(** ** Classification *)

Lemma strict_eq_str_true x s : strict_eq_str x s = true ↔ x = PStr s.
Proof.
  destruct x as [| |b|t]; simpl; try (split; [discriminate | congruence]).
  rewrite bool_decide_eq_true. split; congruence.
Qed.

Lemma strict_eq_str_false x s : strict_eq_str x s = false ↔ x ≠ PStr s.
Proof.
  rewrite <- strict_eq_str_true. destruct (strict_eq_str x s); split; congruence.
Qed.

(** C3: [classifyChange] walks a fixed two-level tree.  An affirmative
    [serviceDown] gives Emergency whatever [preApproved] is; otherwise an
    affirmative [preApproved] gives Standard; otherwise the result is
    Normal. *)
Theorem classifyChange_decision_tree (serviceDown preApproved : prim) :
  (affirmative serviceDown →
     classifyChange serviceDown preApproved = "Emergency") ∧
  (¬ affirmative serviceDown → affirmative preApproved →
     classifyChange serviceDown preApproved = "Standard") ∧
  (¬ affirmative serviceDown → ¬ affirmative preApproved →
     classifyChange serviceDown preApproved = "Normal").
Proof.
  unfold affirmative, classifyChange.
  destruct (strict_eq_str serviceDown "yes") eqn:Hs;
    destruct (strict_eq_str preApproved "yes") eqn:Hp;
    first [apply strict_eq_str_true in Hs | apply strict_eq_str_false in Hs];
    first [apply strict_eq_str_true in Hp | apply strict_eq_str_false in Hp];
    repeat split; intros; congruence.
Qed.


(** ** Workflow resolution *)

Lemma getApprovalPathIn_key workflows changeType riskTier :
  getApprovalPathIn workflows changeType riskTier
  = Return (logical_or (Get workflows (lookup_key changeType riskTier)) (VArr [])).
Proof.
  unfold getApprovalPathIn, lookup_key.
  destruct (strict_eq_str changeType "Normal"); reflexivity.
Qed.

Lemma getApprovalPathIn_own workflows changeType riskTier steps :
  workflows !! lookup_key changeType riskTier = Some steps →
  getApprovalPathIn workflows changeType riskTier = Return (VArr steps).
Proof.
  intros Hown. rewrite getApprovalPathIn_key. unfold Get. rewrite Hown.
  reflexivity.
Qed.

Lemma getApprovalPathIn_missing workflows changeType riskTier :
  workflows !! lookup_key changeType riskTier = None →
  lookup_key changeType riskTier ∉ object_prototype_names →
  getApprovalPathIn workflows changeType riskTier = Return (VArr []).
Proof.
  intros Hown Hproto. rewrite getApprovalPathIn_key. unfold Get.
  rewrite Hown, bool_decide_eq_false_2 by assumption. reflexivity.
Qed.

Lemma getApprovalPathIn_never_throws workflows changeType riskTier e :
  ¬ fails_with (getApprovalPathIn workflows changeType riskTier) e.
Proof. unfold fails_with. rewrite getApprovalPathIn_key. discriminate. Qed.

Lemma workflows_entry_lookup key steps :
  (key, steps) ∈ APPROVAL_WORKFLOWS_entries →
  APPROVAL_WORKFLOWS !! key = Some steps.
Proof.
  unfold APPROVAL_WORKFLOWS_entries. intros Hin.
  repeat (apply elem_of_cons in Hin as [[= -> ->] | Hin];
          [vm_compute; reflexivity |]).
  by apply elem_of_nil in Hin.
Qed.

(** C1, as the code has it: for the change type Normal and a null tier the
    resolver reads the key [Normal-null], which the table does not have, and
    returns the empty step list; no error is raised. *)
Theorem getApprovalPath_Normal_null_empty :
  lookup_key (PStr "Normal") PNull = "Normal-null" ∧
  APPROVAL_WORKFLOWS !! "Normal-null" = None ∧
  getApprovalPath (PStr "Normal") PNull = Return (VArr []) ∧
  ∀ e, ¬ fails_with (getApprovalPath (PStr "Normal") PNull) e.
Proof.
  repeat split; try (vm_compute; reflexivity).
  intros e. apply getApprovalPathIn_never_throws.
Qed.

(** C1, as the specification states it, does not hold: the call with the
    change type Normal and a null tier does not fail with MissingTier. *)
Lemma getApprovalPath_Normal_null_no_MissingTier :
  ¬ fails_with (getApprovalPath (PStr "Normal") PNull) "MissingTier".
Proof. unfold fails_with. vm_compute. discriminate. Qed.

(** C5: the fallback to the empty list misses the keys that an object
    literal inherits.  [constructor] is not a key of the table, and the call
    is not the one with Normal and a null tier; the claim asks for the empty
    step list, but the call returns the built-in found on
    [Object.prototype]. *)
Theorem getApprovalPath_constructor_returns_builtin :
  lookup_key (PStr "constructor") PNull = "constructor" ∧
  APPROVAL_WORKFLOWS !! "constructor" = None ∧
  getApprovalPath (PStr "constructor") PNull
  = Return (VBuiltin "constructor") ∧
  getApprovalPath (PStr "constructor") PNull ≠ Return (VArr []).
Proof. repeat split; try (vm_compute; reflexivity). discriminate. Qed.

(** When the key that is read is neither an own property of the table nor
    the name of a property inherited from [Object.prototype], the resolver
    returns the empty step list and raises nothing. *)
Lemma getApprovalPath_unknown_key_empty (changeType riskTier : prim) :
  APPROVAL_WORKFLOWS !! lookup_key changeType riskTier = None →
  lookup_key changeType riskTier ∉ object_prototype_names →
  getApprovalPath changeType riskTier = Return (VArr []) ∧
  ∀ e, ¬ fails_with (getApprovalPath changeType riskTier) e.
Proof.
  intros Hown Hproto. split.
  - by apply getApprovalPathIn_missing.
  - intros e. apply getApprovalPathIn_never_throws.
Qed.

Lemma getApprovalPath_unknown_key_empty_witness :
  lookup_key (PStr "Rollback") PNull = "Rollback" ∧
  getApprovalPath (PStr "Rollback") PNull = Return (VArr []).
Proof.
  split; [reflexivity |].
  apply (getApprovalPath_unknown_key_empty (PStr "Rollback") PNull).
  - vm_compute. reflexivity.
  - apply (bool_decide_unpack _). vm_compute. exact I.
Defined.

(** So the empty list is not what every key outside the table gives. *)
Lemma getApprovalPath_constructor_not_empty :
  ¬ (∀ changeType riskTier,
       APPROVAL_WORKFLOWS !! lookup_key changeType riskTier = None →
       ¬ (changeType = PStr "Normal" ∧ riskTier = PNull) →
       getApprovalPath changeType riskTier = Return (VArr [])).
Proof.
  intros Hclaim.
  specialize (Hclaim (PStr "constructor") PNull).
  assert (Hres : getApprovalPath (PStr "constructor") PNull
                 = Return (VBuiltin "constructor"))
    by (vm_compute; reflexivity).
  rewrite Hres in Hclaim.
  discriminate Hclaim; [vm_compute; reflexivity | intros [[=] _]].
Qed.

(** C6: a call whose key is one of the five table keys returns that entry's
    step list as it stands in the table.  In particular Standard with a null
    tier gives the six Standard steps and Normal with Medium gives the eight
    Normal-Medium steps, in source order. *)
Theorem getApprovalPath_table_entries :
  (∀ changeType riskTier steps,
     (lookup_key changeType riskTier, steps) ∈ APPROVAL_WORKFLOWS_entries →
     getApprovalPath changeType riskTier = Return (VArr steps)) ∧
  getApprovalPath (PStr "Standard") PNull
  = Return (VArr
      [ "Requester triggers pipeline";
        "Automated pre-checks (lint, test, scan)";
        "Auto-approved — change model match verified";
        "Deploy";
        "Automated validation";
        "Change record logged automatically" ]) ∧
  getApprovalPath (PStr "Normal") (PStr "Medium")
  = Return (VArr
      [ "Requester submits RFC";
        "Automated risk scoring";
        "Technical review (architect or senior engineer)";
        "Change authority approval";
        "Scheduled in change calendar (with conflict check)";
        "Deploy with monitoring";
        "Validation + brief PIR";
        "Close RFC" ]).
Proof.
  split; [| split; vm_compute; reflexivity].
  intros changeType riskTier steps Hin.
  apply getApprovalPathIn_own. by apply workflows_entry_lookup.
Qed.

(** C7: Emergency with any tier, null included, gives the seven Emergency
    steps; and for every change type other than Normal the tier argument
    does not influence the result. *)
Theorem getApprovalPath_Emergency_ignores_tier :
  (∀ riskTier,
     getApprovalPath (PStr "Emergency") riskTier
     = Return (VArr
         [ "Incident declared";
           "Emergency RFC created (minimal fields)";
           "ECAB approval (phone/chat, 2 approvers minimum)";
           "Implement immediately";
           "Validate service restored";
           "Retrospective RFC completion (within 48 h)";
           "Mandatory PIR" ])) ∧
  (∀ changeType riskTier riskTier',
     changeType ≠ PStr "Normal" →
     getApprovalPath changeType riskTier
     = getApprovalPath changeType riskTier').
Proof.
  split.
  - intros riskTier. apply getApprovalPathIn_own.
    vm_compute. reflexivity.
  - intros changeType riskTier riskTier' Hne.
    unfold getApprovalPath. rewrite !getApprovalPathIn_key. unfold lookup_key.
    apply strict_eq_str_false in Hne. rewrite Hne. reflexivity.
Qed.

(** ** Shared state *)

Lemma well_formed_table h :
  well_formed h = true →
  ∃ properties,
    h !! APPROVAL_WORKFLOWS_ref = Some (OTable properties) ∧
    ∀ key a, properties !! key = Some a → (a < length h)%nat.
Proof.
  unfold well_formed.
  destruct (h !! APPROVAL_WORKFLOWS_ref) as [[| properties |]|];
    try discriminate.
  intros Hall. exists properties. split; [reflexivity |].
  intros key a Hkey. rewrite forallb_forall in Hall.
  apply elem_of_map_to_list, list_elem_of_In in Hkey.
  specialize (Hall _ Hkey). by apply bool_decide_eq_true in Hall.
Qed.

Lemma well_formed_prefix h h' :
  well_formed h = true → h `prefix_of` h' → well_formed h' = true.
Proof.
  intros Hwf Hpre. destruct (well_formed_table h Hwf) as (props & Htable & Hprops).
  unfold well_formed. rewrite (prefix_lookup_Some _ _ _ _ Htable Hpre).
  apply forallb_forall. intros [key a] Hin. apply bool_decide_eq_true. simpl.
  apply list_elem_of_In, elem_of_map_to_list in Hin.
  pose proof (Hprops key a Hin). pose proof (prefix_length _ _ Hpre). lia.
Qed.




Lemma getApprovalPathOnHeap_key changeType riskTier h :
  getApprovalPathOnHeap changeType riskTier h
  = workflow_or_new_array (lookup_key changeType riskTier) h.
Proof.
  unfold getApprovalPathOnHeap, lookup_key.
  destruct (strict_eq_str changeType "Normal"); reflexivity.
Qed.






(** On the heap of the loaded script the function returns what
    [getApprovalPath] on values returns. *)
Lemma getApprovalPathOnHeap_initial changeType riskTier :
  output (CallGetApprovalPath changeType riskTier) initial_heap
  = observation_of_value (getApprovalPath changeType riskTier).
Proof.
  unfold output, getApprovalPath. cbn [run_call].
  rewrite getApprovalPathOnHeap_key, getApprovalPathIn_key.
  generalize (lookup_key changeType riskTier). intros key.
  destruct (decide (key ∈ ["Standard"; "Normal-Low"; "Normal-Medium";
                           "Normal-High"; "Emergency"])) as [Hin | Hout].
  - repeat (apply elem_of_cons in Hin as [-> | Hin];
            [vm_compute; reflexivity |]).
    by apply elem_of_nil in Hin.
  - unfold workflow_or_new_array, read_property, Get.
    unfold APPROVAL_WORKFLOWS.
    rewrite (not_elem_of_list_to_map_1 APPROVAL_WORKFLOWS_entries key)
      by exact Hout.
    change (initial_heap !! APPROVAL_WORKFLOWS_ref) with
      (Some (OTable (list_to_map
         (zip (map fst APPROVAL_WORKFLOWS_entries)
              (seq 0 (length APPROVAL_WORKFLOWS_entries)))))).
    cbv beta iota.
    rewrite (not_elem_of_list_to_map_1 _ key) by exact Hout.
    destruct (bool_decide (key ∈ object_prototype_names)); reflexivity.
Qed.

(** ** Risk scoring *)

(** C8: run end to end, seven scores of 1 give the score 1, the tier Low and
    the seven Normal-Low steps; seven scores of 5 give the score 5, the tier
    High and the ten Normal-High steps. *)
Theorem onAssessRiskClick_extremes :
  onAssessRiskClick [1; 1; 1; 1; 1; 1; 1]%float
  = ({| score := 1%float; tier := "Low" |},
     Return (VArr
       [ "Requester submits RFC";
         "Automated risk scoring";
         "Peer review (1 reviewer, async)";
         "Approved → Scheduled in change calendar";
         "Deploy in approved window";
         "Validation";
         "Close RFC" ])) ∧
  onAssessRiskClick [5; 5; 5; 5; 5; 5; 5]%float
  = ({| score := 5%float; tier := "High" |},
     Return (VArr
       [ "Requester submits RFC";
         "Automated risk scoring";
         "Technical review + security review";
         "Pre-CAB: documentation completeness check";
         "CAB review (weekly cadence or ad-hoc)";
         "Senior management sign-off";
         "Scheduled with communication plan";
         "Deploy with war-room / bridge call";
         "Validation + full PIR";
         "Close RFC" ])).
Proof. split; vm_compute; reflexivity. Qed.

(** Comparison of binary64 values, through their specification. *)

Ltac sf_compare_cases :=
  simpl; try congruence;
  change (PosDef.Pos.compare_cont Eq) with Pos.compare;
  repeat match goal with
    | |- context [(?a ?= ?b)%Z] => destruct (Z.compare_spec a b)
    | |- context [Pos.compare ?a ?b] => destruct (Pos.compare_spec a b)
    end;
  simpl; try congruence; try lia.

Lemma SFltb_not_leb x y : SFltb x y = true → SFleb y x = false.
Proof.
  unfold SFltb, SFleb.
  destruct x as [sx|sx| |sx mx ex], y as [sy|sy| |sy my ey]; simpl;
    try destruct sx; try destruct sy; sf_compare_cases.
Qed.

Lemma SFleb_ltb_trans x y z :
  SFleb x y = true → SFltb y z = true → SFltb x z = true.
Proof.
  unfold SFltb, SFleb.
  destruct x as [sx|sx| |sx mx ex], y as [sy|sy| |sy my ey],
           z as [sz|sz| |sz mz ez]; simpl;
    try destruct sx; try destruct sy; try destruct sz; sf_compare_cases.
Qed.

Lemma ltb_not_leb (x y : float) :
  (x <? y)%float = true → (y <=? x)%float = false.
Proof. rewrite ltb_spec, leb_spec. apply SFltb_not_leb. Qed.

Lemma ltb_leb (x y : float) :
  (x <? y)%float = true → (x <=? y)%float = true.
Proof.
  rewrite ltb_spec, leb_spec. unfold SFltb, SFleb.
  destruct (SFcompare (Prim2SF x) (Prim2SF y)) as [[| |]|]; congruence.
Qed.

Lemma leb_ltb_trans (x y z : float) :
  (x <=? y)%float = true → (y <? z)%float = true → (x <? z)%float = true.
Proof. rewrite !ltb_spec, leb_spec. apply SFleb_ltb_trans. Qed.

(** The tier [assessRisk] assigns is a function of its score alone. *)
Lemma assessRisk_tier scores :
  tier (assessRisk scores)
  = if (score (assessRisk scores) <=? 2.0)%float then "Low"
    else if (score (assessRisk scores) <=? 3.5)%float then "Medium"
    else "High".
Proof. reflexivity. Qed.

(** C2: the tier follows the score by three intervals that do not overlap:
    a score of at most 2.0 is Low, a score above 2.0 and at most 3.5 is
    Medium, a score above 3.5 is High; so 2.0 itself is Low and 3.5 itself is
    Medium. *)
Theorem assessRisk_tier_intervals (scores : list float) :
  let s := score (assessRisk scores) in
  let t := tier (assessRisk scores) in
  ((s <=? 2.0)%float = true → t = "Low") ∧
  ((2.0 <? s)%float = true → (s <=? 3.5)%float = true → t = "Medium") ∧
  ((3.5 <? s)%float = true → t = "High") ∧
  (s = 2.0%float → t = "Low") ∧
  (s = 3.5%float → t = "Medium").
Proof.
  intros s t. subst t. rewrite assessRisk_tier. fold s. clearbody s.
  assert (H23 : (2.0 <? 3.5)%float = true) by reflexivity.
  destruct (s <=? 2.0)%float eqn:Hlow; [| destruct (s <=? 3.5)%float eqn:Hmid];
    repeat split; intros; subst; try reflexivity; try discriminate;
    try (vm_compute in Hlow; discriminate);
    try (vm_compute in Hmid; discriminate);
    try match goal with
      | H : (_ <? _)%float = true |- _ =>
          pose proof (ltb_not_leb _ _ H); congruence
      end.
  (* a score of at most 2.0 is not above 3.5 *)
  pose proof (ltb_not_leb _ _ (leb_ltb_trans s 2.0 3.5 Hlow H23)).
  pose proof (ltb_leb _ _ H). congruence.
Qed.

Example assessRisk_boundary_low :
  assessRisk [2; 2; 2; 2; 2; 2; 2]%float = {| score := 2.0; tier := "Low" |}.
Proof. vm_compute. reflexivity. Qed.

Example assessRisk_boundary_medium :
  assessRisk [3; 4]%float = {| score := 3.5; tier := "Medium" |}.
Proof. vm_compute. reflexivity. Qed.

(** Running through all score sequences is complete. *)
Lemma forall_scores_sound n check :
  forall_scores n check = true →
  ∀ zs, length zs = n → Forall (λ z, 1 ≤ z ≤ 5)%Z zs → check zs = true.
Proof.
  revert check. induction n as [|n IH]; intros check Hall zs Hlen Hrange.
  - destruct zs; [exact Hall | discriminate].
  - destruct zs as [|z zs]; [discriminate |].
    apply Forall_cons in Hrange as [Hz Hrange].
    injection Hlen as Hlen. simpl in Hall.
    repeat (apply andb_prop in Hall as [? Hall]).
    assert (Hcases : (z = 1 ∨ z = 2 ∨ z = 3 ∨ z = 4 ∨ z = 5)%Z) by lia.
    destruct Hcases as [-> | [-> | [-> | [-> | ->]]]];
      by apply (IH (λ l, check (_ :: l))).
Qed.

(** C4: for seven integer scores between 1 and 5 the composite score is the
    arithmetic mean of the sequence, that is the binary64 quotient of their
    exact sum by seven, which is within 2^-51 of the rational mean; and the
    score lies between 1.0 and 5.0. *)
Theorem assessRisk_score_is_mean (zs : list Z) :
  length zs = 7 →
  Forall (λ z, 1 ≤ z ≤ 5)%Z zs →
  let s := score (assessRisk (map number_of_Z zs)) in
  s = (number_of_Z (foldr Z.add 0%Z zs) / 7.0)%float ∧
  (1.0 <=? s)%float = true ∧
  (s <=? 5.0)%float = true ∧
  ∃ q, exact_value s = Some q ∧
       (Qabs (q - mean zs) <= 1 # 2 ^ 51)%Q ∧ (1 <= q)%Q ∧ (q <= 5)%Q.
Proof.
  intros Hlen Hrange s.
  assert (Hall : forall_scores 7 score_is_mean = true)
    by (vm_compute; reflexivity).
  pose proof (forall_scores_sound 7 _ Hall zs Hlen Hrange) as Hzs.
  unfold score_is_mean in Hzs. fold s in Hzs. rewrite Hlen in Hzs.
  change (number_of_Z (Z.of_nat 7)) with 7.0%float in Hzs.
  clearbody s.
  destruct (exact_value s) as [q|] eqn:Hq;
    [| rewrite andb_false_r in Hzs; discriminate].
  apply andb_prop in Hzs as [Hzs Hq3].
  apply andb_prop in Hq3 as [Hq1 Hq3].
  apply andb_prop in Hq1 as [Hq1 Hq2].
  apply andb_prop in Hzs as [Hzs Hs2].
  apply andb_prop in Hzs as [Hzs Hs1].
  apply Leibniz.eqb_spec in Hzs.
  apply Qle_bool_iff in Hq1, Hq2, Hq3.
  split; [exact Hzs |].
  split; [exact Hs1 |].
  split; [exact Hs2 |].
  exists q.
  split; [reflexivity |].
  split; [exact Hq1 |].
  split; [exact Hq2 | exact Hq3].
Qed.

Lemma assessRisk_score_is_mean_witness :
  score (assessRisk (map number_of_Z [1; 2; 3; 4; 5; 1; 2]%Z))
  = (18 / 7)%float.
Proof.
  refine (proj1 (assessRisk_score_is_mean [1; 2; 3; 4; 5; 1; 2]%Z _ _)).
  - reflexivity.
  - repeat constructor; lia.
Defined.

(** * Further properties of the code *)

(** ** The handlers never reach the fallback *)

Lemma assessRisk_tier_cases scores :
  tier (assessRisk scores) = "Low" ∨
  tier (assessRisk scores) = "Medium" ∨
  tier (assessRisk scores) = "High".
Proof.
  rewrite assessRisk_tier.
  destruct (score (assessRisk scores) <=? 2.0)%float; [auto |].
  destruct (score (assessRisk scores) <=? 3.5)%float; auto.
Qed.

(** X1: whatever the scores are (any number of them, any numbers, NaN
    included), the path the Assess Risk handler resolves is the table entry
    of [Normal-] followed by the tier, a list of seven to ten steps; the
    empty fallback is never reached from this handler. *)
Theorem onAssessRiskClick_resolves_normal_entry (scores : list float) :
  ∃ steps,
    (onAssessRiskClick scores).2 = Return (VArr steps) ∧
    APPROVAL_WORKFLOWS !! ("Normal-" ++ tier (assessRisk scores)) = Some steps ∧
    (7 ≤ length steps ≤ 10)%nat.
Proof.
  unfold onAssessRiskClick. cbv zeta. cbn [snd].
  destruct (assessRisk_tier_cases scores) as [-> | [-> | ->]];
    eexists; (split; [vm_compute; reflexivity |]);
    (split; [vm_compute; reflexivity |]); simpl; lia.
Qed.

Lemma classifyChange_cases serviceDown preApproved :
  (serviceDown = PStr "yes" →
     classifyChange serviceDown preApproved = "Emergency") ∧
  (serviceDown ≠ PStr "yes" → preApproved = PStr "yes" →
     classifyChange serviceDown preApproved = "Standard") ∧
  (serviceDown ≠ PStr "yes" → preApproved ≠ PStr "yes" →
     classifyChange serviceDown preApproved = "Normal").
Proof.
  unfold classifyChange.
  destruct (strict_eq_str serviceDown "yes") eqn:Hs;
    destruct (strict_eq_str preApproved "yes") eqn:Hp;
    first [apply strict_eq_str_true in Hs | apply strict_eq_str_false in Hs];
    first [apply strict_eq_str_true in Hp | apply strict_eq_str_false in Hp];
    repeat split; intros; congruence.
Qed.

Lemma is_string_dec (x : prim) (s : string) : x = PStr s ∨ x ≠ PStr s.
Proof.
  destruct (strict_eq_str x s) eqn:Hx;
    [left; by apply strict_eq_str_true | right; by apply strict_eq_str_false].
Qed.

(** X2: what the submit handler does with two answers.  It stops exactly
    when an answer is falsy, which a missing answer ([undefined]) and an
    empty one are.  Otherwise it resolves the Emergency entry when the first
    answer is [yes], the Standard entry when only the second is, and in the
    remaining case shows the sliders for a Normal change and resolves no
    path.  So the handler never asks for the path of a Normal change with a
    null tier. *)
Theorem onSubmit_outcome (serviceDown preApproved : prim) :
  (onSubmit serviceDown preApproved = SubmitRejected ↔
     ToBoolean (VPrim serviceDown) = false ∨
     ToBoolean (VPrim preApproved) = false) ∧
  (∀ missing, missing ∈ [PUndefined; PStr ""] →
     onSubmit missing preApproved = SubmitRejected ∧
     onSubmit serviceDown missing = SubmitRejected) ∧
  (ToBoolean (VPrim serviceDown) = true →
   ToBoolean (VPrim preApproved) = true →
   (serviceDown = PStr "yes" →
      ∃ steps,
        APPROVAL_WORKFLOWS !! "Emergency" = Some steps ∧
        (6 ≤ length steps)%nat ∧
        onSubmit serviceDown preApproved
        = SubmitPath "Emergency" (Return (VArr steps))) ∧
   (serviceDown ≠ PStr "yes" → preApproved = PStr "yes" →
      ∃ steps,
        APPROVAL_WORKFLOWS !! "Standard" = Some steps ∧
        (6 ≤ length steps)%nat ∧
        onSubmit serviceDown preApproved
        = SubmitPath "Standard" (Return (VArr steps))) ∧
   (serviceDown ≠ PStr "yes" → preApproved ≠ PStr "yes" →
      onSubmit serviceDown preApproved = SubmitSliders "Normal")) ∧
  (∀ changeType path,
     onSubmit serviceDown preApproved = SubmitPath changeType path →
     changeType ≠ "Normal").
Proof.
  assert (Hfalsy : ∀ a b,
            ToBoolean (VPrim a) = false ∨ ToBoolean (VPrim b) = false →
            onSubmit a b = SubmitRejected).
  { intros a b Hab. unfold onSubmit.
    destruct Hab as [-> | ->]; [reflexivity |].
    by rewrite orb_true_r. }
  assert (Htruthy : ToBoolean (VPrim serviceDown) = true →
                    ToBoolean (VPrim preApproved) = true →
                    onSubmit serviceDown preApproved
                    = if strict_eq_str
                           (PStr (classifyChange serviceDown preApproved))
                           "Normal"
                      then SubmitSliders
                             (classifyChange serviceDown preApproved)
                      else SubmitPath
                             (classifyChange serviceDown preApproved)
                             (getApprovalPath
                                (PStr (classifyChange serviceDown preApproved))
                                PNull)).
  { intros Hs Hp. unfold onSubmit. by rewrite Hs, Hp. }
  pose proof (classifyChange_cases serviceDown preApproved)
    as (Hemergency & Hstandard & Hnormal).
  assert (Hcases : ToBoolean (VPrim serviceDown) = true →
                   ToBoolean (VPrim preApproved) = true →
     (serviceDown = PStr "yes" →
        onSubmit serviceDown preApproved
        = SubmitPath "Emergency" (getApprovalPath (PStr "Emergency") PNull)) ∧
     (serviceDown ≠ PStr "yes" → preApproved = PStr "yes" →
        onSubmit serviceDown preApproved
        = SubmitPath "Standard" (getApprovalPath (PStr "Standard") PNull)) ∧
     (serviceDown ≠ PStr "yes" → preApproved ≠ PStr "yes" →
        onSubmit serviceDown preApproved = SubmitSliders "Normal")).
  { intros Hs Hp. rewrite (Htruthy Hs Hp). repeat split.
    - intros Hsd. by rewrite (Hemergency Hsd).
    - intros Hsd Hpa. by rewrite (Hstandard Hsd Hpa).
    - intros Hsd Hpa. by rewrite (Hnormal Hsd Hpa). }
  split; [| split; [| split]].
  - split; [| apply Hfalsy].
    destruct (ToBoolean (VPrim serviceDown)) eqn:Hs; [| auto].
    destruct (ToBoolean (VPrim preApproved)) eqn:Hp; [| auto].
    destruct (Hcases eq_refl eq_refl) as (He & Hst & Hn).
    destruct (is_string_dec serviceDown "yes") as [Hsd | Hsd];
      [rewrite (He Hsd); discriminate |].
    destruct (is_string_dec preApproved "yes") as [Hpa | Hpa];
      [rewrite (Hst Hsd Hpa) | rewrite (Hn Hsd Hpa)]; discriminate.
  - intros missing Hin.
    assert (Hm : ToBoolean (VPrim missing) = false).
    { repeat (apply elem_of_cons in Hin as [-> | Hin]; [reflexivity |]).
      by apply elem_of_nil in Hin. }
    split; apply Hfalsy; auto.
  - intros Hs Hp. destruct (Hcases Hs Hp) as (He & Hst & Hn).
    split; [| split; [| exact Hn]].
    + intros Hsd. eexists. split; [vm_compute; reflexivity |].
      split; [simpl; lia |]. rewrite (He Hsd). vm_compute. reflexivity.
    + intros Hsd Hpa. eexists. split; [vm_compute; reflexivity |].
      split; [simpl; lia |]. rewrite (Hst Hsd Hpa). vm_compute. reflexivity.
  - intros changeType path Hpath.
    destruct (ToBoolean (VPrim serviceDown)) eqn:Hs;
      [| rewrite Hfalsy in Hpath by auto; discriminate].
    destruct (ToBoolean (VPrim preApproved)) eqn:Hp;
      [| rewrite Hfalsy in Hpath by auto; discriminate].
    destruct (Hcases eq_refl eq_refl) as (He & Hst & Hn).
    destruct (is_string_dec serviceDown "yes") as [Hsd | Hsd];
      [rewrite (He Hsd) in Hpath; injection Hpath as <- _; discriminate |].
    destruct (is_string_dec preApproved "yes") as [Hpa | Hpa];
      [rewrite (Hst Hsd Hpa) in Hpath; injection Hpath as <- _; discriminate
      | rewrite (Hn Hsd Hpa) in Hpath; discriminate].
Qed.

(** ** What the resolver does with other arguments *)

Lemma workflows_lookup_other key :
  key ∉ ["Standard"; "Normal-Low"; "Normal-Medium"; "Normal-High"; "Emergency"] →
  APPROVAL_WORKFLOWS !! key = None.
Proof.
  intros Hkey. apply not_elem_of_list_to_map_1. exact Hkey.
Qed.

Lemma Normal_key_not_inherited s :
  "Normal-" ++ s ∉ object_prototype_names.
Proof.
  unfold object_prototype_names. rewrite !not_elem_of_cons.
  repeat split; try discriminate. apply not_elem_of_nil.
Qed.

(** X3: for the change type Normal and a tier that is [undefined], [null],
    a boolean or a string, the result is always an array: the table entry
    for the strings Low, Medium and High, and the empty list for every other
    of these tier values, such as a tier in lower case, [undefined] or
    [null].  An inherited property is never returned for them. *)
Theorem getApprovalPath_Normal_any_tier (riskTier : prim) :
  getApprovalPath (PStr "Normal") riskTier
  = Return (VArr (default [] (APPROVAL_WORKFLOWS !! lookup_key (PStr "Normal") riskTier))) ∧
  (riskTier ∉ [PStr "Low"; PStr "Medium"; PStr "High"] →
   getApprovalPath (PStr "Normal") riskTier = Return (VArr [])).
Proof.
  assert (Hkey : lookup_key (PStr "Normal") riskTier
                 = "Normal-" ++ ToString riskTier) by reflexivity.
  assert (Hform : getApprovalPath (PStr "Normal") riskTier
    = Return (VArr (default []
        (APPROVAL_WORKFLOWS !! lookup_key (PStr "Normal") riskTier)))).
  { unfold getApprovalPath. rewrite getApprovalPathIn_key. unfold Get.
    destruct (APPROVAL_WORKFLOWS !! _) as [steps|]; [reflexivity |].
    rewrite Hkey, bool_decide_eq_false_2 by apply Normal_key_not_inherited.
    reflexivity. }
  split; [exact Hform |].
  intros Htier. rewrite Hform, Hkey, workflows_lookup_other; [reflexivity |].
  rewrite !not_elem_of_cons in Htier. destruct Htier as (HL & HM & HH & _).
  rewrite !not_elem_of_cons. repeat split; try apply not_elem_of_nil.
  - destruct riskTier as [| |[|]|s]; simpl; discriminate.
  - intros Heq. apply HL. destruct riskTier as [| |[|]|s]; try discriminate.
    cbv [String.append ToString] in Heq. congruence.
  - intros Heq. apply HM. destruct riskTier as [| |[|]|s]; try discriminate.
    cbv [String.append ToString] in Heq. congruence.
  - intros Heq. apply HH. destruct riskTier as [| |[|]|s]; try discriminate.
    cbv [String.append ToString] in Heq. congruence.
  - destruct riskTier as [| |[|]|s]; simpl; discriminate.
Qed.

Lemma getApprovalPath_Normal_any_tier_witness :
  getApprovalPath (PStr "Normal") (PStr "low") = Return (VArr []).
Proof.
  refine (proj2 (getApprovalPath_Normal_any_tier (PStr "low")) _).
  rewrite !not_elem_of_cons. repeat split; try discriminate.
  apply not_elem_of_nil.
Defined.

(** X4: a change type that is not a string (undefined, null or a boolean)
    gives the empty list, whatever the tier is. *)
Theorem getApprovalPath_non_string_changeType (changeType riskTier : prim) :
  (∀ s, changeType ≠ PStr s) →
  getApprovalPath changeType riskTier = Return (VArr []).
Proof.
  intros Hns. destruct changeType as [| |[|]|s];
    try (vm_compute; reflexivity).
  by destruct (Hns s).
Qed.

Lemma getApprovalPath_non_string_changeType_witness :
  getApprovalPath PUndefined (PStr "High") = Return (VArr []).
Proof.
  apply (getApprovalPath_non_string_changeType PUndefined (PStr "High")).
  intros s. discriminate.
Defined.

(** ** Seven integer scores: the sum decides *)

Lemma RiskAssessment_eq (r r' : RiskAssessment) :
  score r = score r' → tier r = tier r' → r = r'.
Proof. destruct r, r'; simpl; congruence. Qed.

Lemma assessRisk_by_sum zs :
  length zs = 7 → Forall (λ z, 1 ≤ z ≤ 5)%Z zs →
  score (assessRisk (map number_of_Z zs))
  = (number_of_Z (foldr Z.add 0%Z zs) / 7.0)%float ∧
  tier (assessRisk (map number_of_Z zs)) = tier_of_sum (foldr Z.add 0%Z zs).
Proof.
  intros Hlen Hrange.
  assert (Hall : forall_scores 7 result_by_sum = true)
    by (vm_compute; reflexivity).
  pose proof (forall_scores_sound 7 _ Hall zs Hlen Hrange) as Hzs.
  unfold result_by_sum in Hzs. rewrite Hlen in Hzs.
  change (number_of_Z (Z.of_nat 7)) with 7.0%float in Hzs.
  apply andb_prop in Hzs as [Hscore Htier].
  split; [by apply Leibniz.eqb_spec | by apply bool_decide_eq_true in Htier].
Qed.

Lemma sum_scores_range zs :
  Forall (λ z, 1 ≤ z ≤ 5)%Z zs →
  (Z.of_nat (length zs) ≤ foldr Z.add 0 zs ≤ 5 * Z.of_nat (length zs))%Z.
Proof. induction 1 as [|z zs Hz _ IH]; simpl; lia. Qed.

Lemma sum_scores_permutation (zs zs' : list Z) :
  zs ≡ₚ zs' → foldr Z.add 0%Z zs = foldr Z.add 0%Z zs'.
Proof. induction 1; simpl; lia. Qed.

Lemma sum_scores_le (zs zs' : list Z) :
  Forall2 Z.le zs zs' → (foldr Z.add 0 zs ≤ foldr Z.add 0 zs')%Z.
Proof. induction 1; simpl; lia. Qed.

(** X5: for seven integer scores between 1 and 5 the tier is decided by
    their sum: Low up to 14, Medium from 15 to 24, High from 25 on. *)
Theorem assessRisk_tier_by_sum (zs : list Z) :
  length zs = 7 →
  Forall (λ z, 1 ≤ z ≤ 5)%Z zs →
  let sum := foldr Z.add 0%Z zs in
  let t := tier (assessRisk (map number_of_Z zs)) in
  (t = "Low" ↔ (sum ≤ 14)%Z) ∧
  (t = "Medium" ↔ (15 ≤ sum ≤ 24)%Z) ∧
  (t = "High" ↔ (25 ≤ sum)%Z).
Proof.
  intros Hlen Hrange sum t.
  destruct (assessRisk_by_sum zs Hlen Hrange) as [_ Htier].
  subst t. rewrite Htier. fold sum. unfold tier_of_sum.
  destruct (Z.leb_spec sum 14); [| destruct (Z.leb_spec sum 24)];
    repeat split; intros; try discriminate; try reflexivity; lia.
Qed.

Lemma assessRisk_tier_by_sum_witness :
  tier (assessRisk (map number_of_Z [2; 2; 2; 2; 2; 2; 3]%Z)) = "Medium".
Proof.
  refine (proj2 (proj1 (proj2
    (assessRisk_tier_by_sum [2; 2; 2; 2; 2; 2; 3]%Z _ _))) _).
  - reflexivity.
  - repeat constructor; lia.
  - simpl. lia.
Defined.

(** X6: for seven integer scores between 1 and 5 the order of the scores
    does not matter: a rearranged sequence gives the same score and tier. *)
Theorem assessRisk_order_irrelevant (zs zs' : list Z) :
  zs ≡ₚ zs' →
  length zs = 7 →
  Forall (λ z, 1 ≤ z ≤ 5)%Z zs →
  assessRisk (map number_of_Z zs) = assessRisk (map number_of_Z zs').
Proof.
  intros Hperm Hlen Hrange.
  assert (Hlen' : length zs' = 7) by (by rewrite <- Hperm).
  assert (Hrange' : Forall (λ z, 1 ≤ z ≤ 5)%Z zs') by (by rewrite <- Hperm).
  destruct (assessRisk_by_sum zs Hlen Hrange) as [Hs Ht].
  destruct (assessRisk_by_sum zs' Hlen' Hrange') as [Hs' Ht'].
  apply RiskAssessment_eq.
  - rewrite Hs, Hs'. by rewrite (sum_scores_permutation zs zs').
  - rewrite Ht, Ht'. by rewrite (sum_scores_permutation zs zs').
Qed.

Lemma assessRisk_order_irrelevant_witness :
  assessRisk (map number_of_Z [1; 2; 3; 4; 5; 1; 2]%Z)
  = assessRisk (map number_of_Z [2; 1; 3; 4; 5; 1; 2]%Z).
Proof.
  apply (assessRisk_order_irrelevant
           [1; 2; 3; 4; 5; 1; 2]%Z [2; 1; 3; 4; 5; 1; 2]%Z).
  - apply perm_swap.
  - reflexivity.
  - repeat constructor; lia.
Defined.

Lemma tier_of_sum_mono (a b : Z) :
  (a ≤ b)%Z → (tier_rank (tier_of_sum a) ≤ tier_rank (tier_of_sum b))%nat.
Proof.
  intros Hab. unfold tier_of_sum.
  destruct (Z.leb_spec a 14), (Z.leb_spec b 14);
    [| | | destruct (Z.leb_spec a 24), (Z.leb_spec b 24)];
    try (vm_compute; lia);
    try (destruct (Z.leb_spec b 24); vm_compute; lia);
    try (destruct (Z.leb_spec a 24); vm_compute; lia); lia.
Qed.

(** X7: raising scores never lightens the review.  If every score of one
    sequence of seven integer scores is at most the corresponding score of
    another, the tier of the first is not above the tier of the second and
    its approval path is not longer. *)
Theorem assessRisk_monotone (zs zs' : list Z) :
  Forall2 Z.le zs zs' →
  length zs = 7 →
  Forall (λ z, 1 ≤ z ≤ 5)%Z zs →
  Forall (λ z, 1 ≤ z ≤ 5)%Z zs' →
  (tier_rank (tier (assessRisk (map number_of_Z zs)))
     ≤ tier_rank (tier (assessRisk (map number_of_Z zs'))))%nat ∧
  (path_length (onAssessRiskClick (map number_of_Z zs)).2
     ≤ path_length (onAssessRiskClick (map number_of_Z zs')).2)%nat.
Proof.
  intros Hle Hlen Hrange Hrange'.
  assert (Hlen' : length zs' = 7) by (by rewrite <- (Forall2_length _ _ _ Hle)).
  destruct (assessRisk_by_sum zs Hlen Hrange) as [_ Ht].
  destruct (assessRisk_by_sum zs' Hlen' Hrange') as [_ Ht'].
  pose proof (tier_of_sum_mono _ _ (sum_scores_le _ _ Hle)) as Hmono.
  unfold onAssessRiskClick. cbv zeta. cbn [snd].
  rewrite Ht, Ht'. split; [exact Hmono |].
  revert Hmono. unfold tier_of_sum.
  repeat match goal with
    | |- context [(?a <=? ?b)%Z] => destruct (a <=? b)%Z
    end; vm_compute; lia.
Qed.

Lemma assessRisk_monotone_witness :
  (tier_rank (tier (assessRisk (map number_of_Z [1; 1; 1; 1; 1; 1; 1]%Z)))
     ≤ tier_rank (tier (assessRisk (map number_of_Z [5; 1; 3; 4; 5; 5; 5]%Z))))%nat.
Proof.
  refine (proj1 (assessRisk_monotone
    [1; 1; 1; 1; 1; 1; 1]%Z [5; 1; 3; 4; 5; 5; 5]%Z _ _ _ _)).
  - repeat constructor; lia.
  - reflexivity.
  - repeat constructor; lia.
  - repeat constructor; lia.
Defined.

(** ** Scores that are not numbers *)

Lemma is_nan_Prim2SF (x : float) :
  is_nan x = true ↔ Prim2SF x = S754_nan.
Proof.
  split; intros H.
  - unfold Prim2SF. rewrite H. reflexivity.
  - unfold is_nan. rewrite FloatAxioms.eqb_spec, H. reflexivity.
Qed.

Lemma add_nan_l (x y : float) : is_nan x = true → is_nan (x + y) = true.
Proof.
  intros H. apply is_nan_Prim2SF in H. apply is_nan_Prim2SF.
  rewrite add_spec, H. reflexivity.
Qed.

Lemma add_nan_r (x y : float) : is_nan y = true → is_nan (x + y) = true.
Proof.
  intros H. apply is_nan_Prim2SF in H. apply is_nan_Prim2SF.
  rewrite add_spec, H. destruct (Prim2SF x); reflexivity.
Qed.

Lemma div_nan_l (x y : float) : is_nan x = true → is_nan (x / y) = true.
Proof.
  intros H. apply is_nan_Prim2SF in H. apply is_nan_Prim2SF.
  rewrite div_spec, H. reflexivity.
Qed.

Lemma leb_nan_l (x y : float) : is_nan x = true → (x <=? y)%float = false.
Proof.
  intros H. apply is_nan_Prim2SF in H. rewrite leb_spec, H. reflexivity.
Qed.

Lemma reduce_sum_nan_acc (scores : list float) (acc : float) :
  is_nan acc = true →
  is_nan (reduce (λ acc val, acc + val)%float acc scores) = true.
Proof.
  unfold reduce. revert acc.
  induction scores as [|x scores IH]; intros acc Hacc; simpl; [exact Hacc |].
  apply IH. by apply add_nan_l.
Qed.

Lemma reduce_sum_nan (scores : list float) (acc : float) :
  Exists (λ x, is_nan x = true) scores →
  is_nan (reduce (λ acc val, acc + val)%float acc scores) = true.
Proof.
  intros Hex. revert acc.
  induction Hex as [x scores Hx | x scores _ IH]; intros acc.
  - apply (reduce_sum_nan_acc scores (acc + x)). by apply add_nan_r.
  - apply (IH (acc + x)%float).
Qed.

Lemma assessRisk_nan_score scores :
  is_nan (score (assessRisk scores)) = true →
  tier (assessRisk scores) = "High".
Proof.
  intros Hnan. rewrite assessRisk_tier.
  rewrite !(leb_nan_l _ _ Hnan). reflexivity.
Qed.

(** X8: when the list of scores is empty, or one of the scores is NaN, the
    composite score is NaN and the tier is High, so the Assess Risk handler
    resolves the ten steps of Normal-High. *)
Theorem assessRisk_not_a_number (scores : list float) :
  scores = [] ∨ Exists (λ x, is_nan x = true) scores →
  is_nan (score (assessRisk scores)) = true ∧
  tier (assessRisk scores) = "High" ∧
  ∃ steps,
    APPROVAL_WORKFLOWS !! "Normal-High" = Some steps ∧
    length steps = 10%nat ∧
    (onAssessRiskClick scores).2 = Return (VArr steps).
Proof.
  intros Hscores.
  assert (Hnan : is_nan (score (assessRisk scores)) = true).
  { destruct Hscores as [-> | Hex]; [vm_compute; reflexivity |].
    apply div_nan_l. by apply reduce_sum_nan. }
  pose proof (assessRisk_nan_score scores Hnan) as Htier.
  split; [exact Hnan |]. split; [exact Htier |].
  unfold onAssessRiskClick. cbv zeta. cbn [snd]. rewrite Htier.
  eexists. split; [vm_compute; reflexivity |].
  split; vm_compute; reflexivity.
Qed.

Lemma assessRisk_not_a_number_witness :
  tier (assessRisk [3; nan; 1]%float) = "High".
Proof.
  refine (proj1 (proj2 (assessRisk_not_a_number [3; nan; 1]%float _))).
  right. apply Exists_cons_tl, Exists_cons_hd. reflexivity.
Defined.

(** ** Reading the sliders *)

Lemma String_append_cons c s r :
  String c s ++ r = String c (s ++ r).
Proof. reflexivity. Qed.

Lemma leading_digits_numeral (d : Decimal.uint) (rest : string) :
  leading_digits rest = Decimal.Nil →
  leading_digits (DecimalString.NilEmpty.string_of_uint d ++ rest) = d.
Proof.
  intros Hrest.
  induction d as [|d IH|d IH|d IH|d IH|d IH|d IH|d IH|d IH|d IH|d IH];
    cbn [DecimalString.NilEmpty.string_of_uint];
    [exact Hrest | ..];
    rewrite String_append_cons; cbn [leading_digits];
    simpl (digit_of_ascii _); by rewrite IH.
Qed.

Lemma trim_start_no_white_space (c : ascii) (s : string) :
  strip_white_space (String c s) = None →
  trim_start (String c s) = String c s.
Proof.
  intros Hc. unfold trim_start. cbn [String.length trim_start_fuel].
  by rewrite Hc.
Qed.

Lemma number_of_integer_0 : number_of_integer 0 = PrimFloat.zero.
Proof. reflexivity. Qed.

(** X9: [parseInt] reads back the decimal numeral of a natural number, also
    when the numeral is followed by text that does not begin with a digit;
    the result is the Number nearest to the integer. *)
Theorem parseInt10_decimal_string (n : N) (rest : string) :
  leading_digits rest = Decimal.Nil →
  parseInt10 (PStr (decimal_string n ++ rest))
  = number_of_integer (Z.of_N n).
Proof.
  intros Hrest.
  pose proof (DecimalN.Unsigned.of_to n) as Hn.
  pose proof (leading_digits_numeral (N.to_uint n) rest Hrest) as Hd.
  assert (Hnil : N.to_uint n ≠ Decimal.Nil).
  { destruct n as [|p]; [discriminate |].
    apply DecimalPos.Unsigned.to_uint_nonnil. }
  unfold decimal_string, DecimalString.NilZero.string_of_uint.
  unfold parseInt10. cbn [ToString].
  destruct (N.to_uint n) as [|d|d|d|d|d|d|d|d|d|d] eqn:Hto;
    [done | ..];
    cbn [DecimalString.NilEmpty.string_of_uint] in *;
    rewrite String_append_cons in *;
    (rewrite trim_start_no_white_space by (vm_compute; reflexivity));
    cbv beta iota zeta; rewrite Hd, Hn;
    (destruct (Z.eqb_spec (Z.of_N n) 0) as [-> | _]; reflexivity).
Qed.

Lemma parseInt10_decimal_string_witness :
  parseInt10 (PStr "42px") = 42%float.
Proof.
  apply (parseInt10_decimal_string 42 "px"). reflexivity.
Defined.

Lemma parseInt10_score_numeral (z : Z) :
  (1 ≤ z ≤ 5)%Z →
  parseInt10 (PStr (decimal_string (Z.to_N z))) = number_of_Z z.
Proof.
  intros Hz.
  assert (Hcases : (z = 1 ∨ z = 2 ∨ z = 3 ∨ z = 4 ∨ z = 5)%Z) by lia.
  destruct Hcases as [-> | [-> | [-> | [-> | ->]]]]; vm_compute; reflexivity.
Qed.

(** X10: [readSliderValues] always returns seven numbers, one per risk
    dimension and in the order of the table; a slider that is not in the
    document counts as 3.  With no slider at all the Assess Risk handler
    therefore gets the score 3, the tier Medium and the eight Normal-Medium
    steps. *)
Theorem readSliderValues_missing_sliders
    (getElementById : string → option element) :
  length (readSliderValues getElementById) = 7%nat ∧
  (∀ i dim,
     RISK_DIMENSIONS !! i = Some dim →
     getElementById ("slider-" ++ dim_id dim) = None →
     readSliderValues getElementById !! i = Some 3%float) ∧
  ((∀ dim, dim ∈ RISK_DIMENSIONS →
           getElementById ("slider-" ++ dim_id dim) = None) →
   ∃ steps,
     APPROVAL_WORKFLOWS !! "Normal-Medium" = Some steps ∧
     onAssessRiskClick (readSliderValues getElementById)
     = ({| score := 3%float; tier := "Medium" |}, Return (VArr steps))).
Proof.
  split; [reflexivity |]. split.
  - intros i dim Hdim Hnone. unfold readSliderValues.
    rewrite list_lookup_fmap, Hdim. cbn [fmap option_fmap option_map].
    by rewrite Hnone.
  - intros Hnone.
    assert (Hthree : readSliderValues getElementById
                     = [3; 3; 3; 3; 3; 3; 3]%float).
    { unfold readSliderValues.
      transitivity (map (λ _ : RiskDimension, 3%float) RISK_DIMENSIONS);
        [| reflexivity].
      apply map_ext_in. intros dim Hdim.
      rewrite Hnone; [reflexivity | by apply list_elem_of_In]. }
    rewrite Hthree. eexists. split; vm_compute; reflexivity.
Qed.

(** X11: when every slider is in the document and holds the numeral of an
    integer between 1 and 5, as a range input with these bounds does,
    [readSliderValues] returns exactly these seven integers as numbers; the
    tier the handler then computes is the one that goes with their sum. *)
Theorem readSliderValues_valid_sliders
    (getElementById : string → option element) (zs : list Z) :
  Forall2
    (λ dim z,
       (1 ≤ z ≤ 5)%Z ∧
       ∃ el, getElementById ("slider-" ++ dim_id dim) = Some el ∧
             element_value el = PStr (decimal_string (Z.to_N z)))
    RISK_DIMENSIONS zs →
  readSliderValues getElementById = map number_of_Z zs ∧
  length zs = 7%nat ∧
  Forall (λ z, 1 ≤ z ≤ 5)%Z zs ∧
  tier (assessRisk (readSliderValues getElementById))
  = tier_of_sum (foldr Z.add 0%Z zs).
Proof.
  intros Hdoc.
  assert (Hlen : length zs = 7%nat)
    by (by rewrite <- (Forall2_length _ _ _ Hdoc)).
  assert (Hrange : Forall (λ z, 1 ≤ z ≤ 5)%Z zs).
  { clear Hlen. induction Hdoc as [|dim z dims zs [Hz _] _ IH]; auto. }
  assert (Hread : readSliderValues getElementById = map number_of_Z zs).
  { unfold readSliderValues. clear Hlen Hrange.
    induction Hdoc as [|dim z dims zs (Hz & el & Hel & Hval) _ IH];
      [reflexivity |].
    cbn [map]. rewrite Hel, Hval, IH.
    by rewrite parseInt10_score_numeral. }
  repeat split; try assumption.
  rewrite Hread. by apply assessRisk_by_sum.
Qed.

Lemma readSliderValues_valid_sliders_witness :
  readSliderValues (λ _, Some {| element_value := PStr "4" |})
  = map number_of_Z [4; 4; 4; 4; 4; 4; 4]%Z.
Proof.
  refine (proj1 (readSliderValues_valid_sliders
    (λ _, Some {| element_value := PStr "4" |})
    [4; 4; 4; 4; 4; 4; 4]%Z _)).
  unfold RISK_DIMENSIONS.
  repeat (apply List.Forall2_cons;
          [split; [lia | eexists; split; reflexivity] |]).
  apply List.Forall2_nil.
Defined.

(** X12: when some slider holds a value [parseInt] cannot read (an empty
    string, text without a leading number, or no [value] at all), the
    composite score is NaN and the tier is High. *)
Theorem readSliderValues_unreadable_slider
    (getElementById : string → option element)
    (dim : RiskDimension) (el : element) :
  dim ∈ RISK_DIMENSIONS →
  getElementById ("slider-" ++ dim_id dim) = Some el →
  is_nan (parseInt10 (element_value el)) = true →
  is_nan (score (assessRisk (readSliderValues getElementById))) = true ∧
  tier (assessRisk (readSliderValues getElementById)) = "High".
Proof.
  intros Hdim Hel Hnan.
  assert (Hscore :
    is_nan (score (assessRisk (readSliderValues getElementById))) = true).
  { apply div_nan_l, reduce_sum_nan. unfold readSliderValues.
    apply Exists_exists. exists (parseInt10 (element_value el)).
    split; [| exact Hnan].
    apply list_elem_of_fmap. exists dim. by rewrite Hel. }
  split; [exact Hscore | by apply assessRisk_nan_score].
Qed.

Lemma readSliderValues_unreadable_slider_witness :
  tier (assessRisk (readSliderValues
         (λ _, Some {| element_value := PStr "" |}))) = "High".
Proof.
  refine (proj2 (readSliderValues_unreadable_slider
    (λ _, Some {| element_value := PStr "" |})
    {| dim_id := "complexity"; label := "Complexity";
       lowDesc := "1 = Single config change";
       highDesc := "5 = Multi-system orchestrated deployment" |}
    {| element_value := PStr "" |} _ _ _)).
  - unfold RISK_DIMENSIONS. apply list_elem_of_further, list_elem_of_here.
  - reflexivity.
  - reflexivity.
Defined.

(** ** The score as it is shown *)

Lemma toFixed_2_by_sum (Number_toString : float → string) (sum : Z) :
  (7 ≤ sum ≤ 35)%Z →
  toFixed Number_toString (number_of_Z sum / 7.0)%float 2
  = Return (place_point (nearest_scaled (inject_Z sum / inject_Z 7) 2) 2) ∧
  String.length (place_point (nearest_scaled (inject_Z sum / inject_Z 7) 2) 2)
  = 4%nat ∧
  (100 ≤ nearest_scaled (inject_Z sum / inject_Z 7) 2 ≤ 500)%Z.
Proof.
  intros Hsum.
  replace sum with (7 + Z.of_nat (Z.to_nat (sum - 7)))%Z by lia.
  assert (Hk : (Z.to_nat (sum - 7) < 29)%nat) by lia.
  revert Hk. generalize (Z.to_nat (sum - 7)). intros k Hk.
  do 29 (destruct k as [|k];
         [vm_compute; repeat split; (reflexivity || discriminate) |]).
  lia.
Qed.

(** X13: for seven integer scores between 1 and 5 the text shown as the
    composite score is the arithmetic mean rounded to two decimals, halves
    upwards: the rounding of the binary64 score agrees with the rounding of
    the exact mean.  The text has the form [d.dd] and lies between 1.00 and
    5.00. *)
Theorem compositeScoreText_rounded_mean
    (Number_toString : float → string) (zs : list Z) :
  length zs = 7 →
  Forall (λ z, 1 ≤ z ≤ 5)%Z zs →
  let n := nearest_scaled (mean zs) 2 in
  compositeScoreText Number_toString (score (assessRisk (map number_of_Z zs)))
  = Return (place_point n 2) ∧
  String.length (place_point n 2) = 4%nat ∧
  (100 ≤ n ≤ 500)%Z.
Proof.
  intros Hlen Hrange n.
  destruct (assessRisk_by_sum zs Hlen Hrange) as [Hscore _].
  pose proof (sum_scores_range zs Hrange) as Hsum. rewrite Hlen in Hsum.
  subst n. unfold compositeScoreText, mean. rewrite Hscore, Hlen.
  apply toFixed_2_by_sum. lia.
Qed.

Lemma compositeScoreText_rounded_mean_witness :
  compositeScoreText (λ _, "")
    (score (assessRisk (map number_of_Z [1; 2; 3; 4; 5; 1; 2]%Z)))
  = Return "2.57".
Proof.
  refine (proj1 (compositeScoreText_rounded_mean (λ _, "")
                   [1; 2; 3; 4; 5; 1; 2]%Z _ _)).
  - reflexivity.
  - repeat constructor; lia.
Defined.

(** ** When the resolver returns something that is not a step list *)

(** X14: for a change type that is [undefined], [null], a boolean or a
    string, and such a tier, the resolver returns an inherited built-in
    exactly when the change type is a string that names a property of
    [Object.prototype]; the built-in is then the one of that name.  For
    every other of these change types the result is an array of steps. *)
Theorem getApprovalPath_inherited_exactly (changeType riskTier : prim) :
  (∀ name,
     getApprovalPath changeType riskTier = Return (VBuiltin name) ↔
     changeType = PStr name ∧ name ∈ object_prototype_names) ∧
  ((∀ name, name ∈ object_prototype_names → changeType ≠ PStr name) →
   ∃ steps, getApprovalPath changeType riskTier = Return (VArr steps)).
Proof.
  assert (Hown : ∀ name, name ∈ object_prototype_names →
            lookup_key (PStr name) riskTier = name ∧
            APPROVAL_WORKFLOWS !! name = None).
  { intros name Hin. unfold object_prototype_names in Hin.
    repeat (apply elem_of_cons in Hin as [-> | Hin];
            [split; vm_compute; reflexivity |]).
    by apply elem_of_nil in Hin. }
  assert (Hkey : ∀ name,
            lookup_key changeType riskTier = name →
            name ∈ object_prototype_names → changeType = PStr name).
  { intros name Hname Hin. unfold lookup_key in Hname.
    destruct (strict_eq_str changeType "Normal") eqn:Hnormal.
    - subst name. by destruct (Normal_key_not_inherited (ToString riskTier)).
    - destruct changeType as [| |[|]|s]; simpl in Hname; subst name;
        try reflexivity; exfalso; revert Hin; unfold object_prototype_names;
        rewrite !elem_of_cons, elem_of_nil; intros Hin;
        repeat (destruct Hin as [Hin | Hin]; [discriminate |]); exact Hin. }
  unfold getApprovalPath. rewrite getApprovalPathIn_key. unfold Get.
  split.
  - intros name. split.
    + destruct (APPROVAL_WORKFLOWS !! _) as [steps|]; [discriminate |].
      destruct (bool_decide _) eqn:Hin; [| discriminate].
      apply bool_decide_eq_true in Hin. intros [= <-].
      split; [by apply Hkey | exact Hin].
    + intros [-> Hin]. destruct (Hown name Hin) as [-> ->].
      by rewrite bool_decide_eq_true_2.
  - intros Hnot.
    destruct (APPROVAL_WORKFLOWS !! _) as [steps|]; [by eexists |].
    destruct (bool_decide _) eqn:Hin; [| by eexists].
    apply bool_decide_eq_true in Hin.
    by destruct (Hnot _ Hin (Hkey _ eq_refl Hin)).
Qed.

Lemma getApprovalPath_inherited_exactly_witness :
  ∃ steps, getApprovalPath (PStr "Rollback") PNull = Return (VArr steps).
Proof.
  refine (proj2 (getApprovalPath_inherited_exactly (PStr "Rollback") PNull) _).
  intros name Hin. unfold object_prototype_names in Hin.
  repeat (apply elem_of_cons in Hin as [-> | Hin]; [discriminate |]).
  by apply elem_of_nil in Hin.
Defined.

(** ** The tier grows with the score *)

Lemma SFleb_trans x y z :
  SFleb x y = true → SFleb y z = true → SFleb x z = true.
Proof.
  unfold SFleb.
  destruct x as [sx|sx| |sx mx ex], y as [sy|sy| |sy my ey],
           z as [sz|sz| |sz mz ez]; simpl;
    try destruct sx; try destruct sy; try destruct sz; sf_compare_cases.
Qed.

Lemma leb_trans (x y z : float) :
  (x <=? y)%float = true → (y <=? z)%float = true → (x <=? z)%float = true.
Proof. rewrite !leb_spec. apply SFleb_trans. Qed.

(** X15: for any two lists of scores, of any length, a composite score that
    is at most another one never gets a higher tier. *)
Theorem assessRisk_tier_monotone_in_score (scores scores' : list float) :
  (score (assessRisk scores) <=? score (assessRisk scores'))%float = true →
  (tier_rank (tier (assessRisk scores))
     ≤ tier_rank (tier (assessRisk scores')))%nat.
Proof.
  intros Hle. rewrite !assessRisk_tier.
  set (s := score (assessRisk scores)) in *.
  set (s' := score (assessRisk scores')) in *. clearbody s s'.
  destruct (s' <=? 2.0)%float eqn:Hlow'.
  - rewrite (leb_trans s s' 2.0 Hle Hlow'). vm_compute. lia.
  - destruct (s' <=? 3.5)%float eqn:Hmid'.
    + destruct (s <=? 2.0)%float; [vm_compute; lia |].
      rewrite (leb_trans s s' 3.5 Hle Hmid'). vm_compute. lia.
    + destruct (s <=? 2.0)%float; [vm_compute; lia |].
      destruct (s <=? 3.5)%float; vm_compute; lia.
Qed.

Lemma assessRisk_tier_monotone_in_score_witness :
  (tier_rank (tier (assessRisk [1; 2]%float))
     ≤ tier_rank (tier (assessRisk [4; 5; 5]%float)))%nat.
Proof.
  apply (assessRisk_tier_monotone_in_score [1; 2]%float [4; 5; 5]%float).
  reflexivity.
Defined.
